(** * Verification of the gaming server core: state machine, wake controller,
      CEC power monitor and PS5 presence detector. *)

From Stdlib Require Import ZArith List Bool String Ascii Lia.
Import ListNotations.
Open Scope Z_scope.
Set Warnings "-register-all".

(* ================================================================ *)
(** ** Shared enumerations (cec_monitor.h, server_state_machine.h) *)
(* ================================================================ *)

(** ps5_power_state_t *)
Inductive ps5_power_state_t :=
| PS5_POWER_UNKNOWN | PS5_POWER_OFF | PS5_POWER_STANDBY | PS5_POWER_ON.

Definition power_eqb (a b : ps5_power_state_t) : bool :=
  match a, b with
  | PS5_POWER_UNKNOWN, PS5_POWER_UNKNOWN
  | PS5_POWER_OFF, PS5_POWER_OFF
  | PS5_POWER_STANDBY, PS5_POWER_STANDBY
  | PS5_POWER_ON, PS5_POWER_ON => true
  | _, _ => false
  end.

(** platform_ps5_power_t: what platform_get_ps5_power() may return; any
    value outside the three named ones (an error code) is [PLATFORM_PS5_OTHER]. *)
Inductive platform_ps5_power_t :=
| PLATFORM_PS5_ON | PLATFORM_PS5_STANDBY | PLATFORM_PS5_OFF
| PLATFORM_PS5_OTHER (code : Z).

(* ================================================================ *)
(** ** Server state machine (server_state_machine.c) *)
(* ================================================================ *)

Module ServerSM.

(** server_state_t *)
Inductive server_state_t :=
| SERVER_STATE_INIT | SERVER_STATE_MONITORING | SERVER_STATE_PS5_DETECTED
| SERVER_STATE_CLIENT_CONNECTED | SERVER_STATE_WAKING_PS5 | SERVER_STATE_ERROR.

Definition state_eqb (a b : server_state_t) : bool :=
  match a, b with
  | SERVER_STATE_INIT, SERVER_STATE_INIT
  | SERVER_STATE_MONITORING, SERVER_STATE_MONITORING
  | SERVER_STATE_PS5_DETECTED, SERVER_STATE_PS5_DETECTED
  | SERVER_STATE_CLIENT_CONNECTED, SERVER_STATE_CLIENT_CONNECTED
  | SERVER_STATE_WAKING_PS5, SERVER_STATE_WAKING_PS5
  | SERVER_STATE_ERROR, SERVER_STATE_ERROR => true
  | _, _ => false
  end.

(** ps5_network_status_t *)
Inductive ps5_network_status_t := PS5_NET_UNKNOWN | PS5_NET_OFFLINE | PS5_NET_ONLINE.

(** platform_led_state_t values used by map_server_state_to_led *)
Inductive platform_led_state_t :=
| LED_STATE_OFF | LED_STATE_PS5_OFF | LED_STATE_PS5_ON
| LED_STATE_VPN_CONNECTED | LED_STATE_WAKING | LED_STATE_ERROR.

Definition map_server_state_to_led (s : server_state_t) : platform_led_state_t :=
  match s with
  | SERVER_STATE_INIT => LED_STATE_OFF
  | SERVER_STATE_MONITORING => LED_STATE_PS5_OFF
  | SERVER_STATE_PS5_DETECTED => LED_STATE_PS5_ON
  | SERVER_STATE_CLIENT_CONNECTED => LED_STATE_VPN_CONNECTED
  | SERVER_STATE_WAKING_PS5 => LED_STATE_WAKING
  | SERVER_STATE_ERROR => LED_STATE_ERROR
  end.

(** Observable side effects: platform_set_led_state() and the state-enter
    callback [on_state_enter(new_state, user_data)]. *)
Inductive effect :=
| SetLed (l : platform_led_state_t)
| EnterCallback (s : server_state_t).

(** server_context_t (the configuration and [user_data] are never read by
    the operations below; the callback is present or absent). Counters are
    C [int]s; they are modelled as [Z], no operation below wraps them. *)
Record server_context_t := mkCtx {
  current_state : server_state_t;
  last_state : server_state_t;
  ps5_power : ps5_power_state_t;
  ps5_network : ps5_network_status_t;
  client_count : Z;
  wake_requested : bool;
  wake_completed : bool;
  error_count : Z;
  has_on_state_enter : bool
}.

(** A call on a [server_context_t *]: [None] is the NULL pointer. Each
    operation returns the context after the call and the effects it emitted. *)
Definition result := (option server_context_t * list effect)%type.

Definition update_led_for_state (s : server_state_t) : list effect :=
  [SetLed (map_server_state_to_led s)].

Definition set_current (c : server_context_t) (last cur : server_state_t) :=
  mkCtx cur last c.(ps5_power) c.(ps5_network) c.(client_count)
        c.(wake_requested) c.(wake_completed) c.(error_count) c.(has_on_state_enter).

Definition transition_ctx (c : server_context_t) (new_state : server_state_t) : server_context_t * list effect :=
  let old_state := c.(current_state) in
  let c' := set_current c old_state new_state in
  (c', update_led_for_state new_state ++
       (if c'.(has_on_state_enter) then [EnterCallback new_state] else [])).

(** server_sm_transition *)
Definition server_sm_transition (ctx : option server_context_t) (new_state : server_state_t) : result :=
  match ctx with
  | None => (None, [])
  | Some c => let '(c', eff) := transition_ctx c new_state in (Some c', eff)
  end.

Definition clear_wake_flags (c : server_context_t) : server_context_t :=
  mkCtx c.(current_state) c.(last_state) c.(ps5_power) c.(ps5_network) c.(client_count)
        false false c.(error_count) c.(has_on_state_enter).

(** The switch of server_sm_update: the next state, and the context with the
    flag writes the WAKING_PS5 branch performs. *)
Definition update_switch (c : server_context_t) : server_state_t * server_context_t :=
  match c.(current_state) with
  | SERVER_STATE_INIT => (SERVER_STATE_MONITORING, c)
  | SERVER_STATE_MONITORING =>
      if power_eqb c.(ps5_power) PS5_POWER_ON then (SERVER_STATE_PS5_DETECTED, c)
      else if 0 <? c.(client_count) then (SERVER_STATE_CLIENT_CONNECTED, c)
      else if 5 <? c.(error_count) then (SERVER_STATE_ERROR, c)
      else (c.(current_state), c)
  | SERVER_STATE_PS5_DETECTED =>
      if negb (power_eqb c.(ps5_power) PS5_POWER_ON) then (SERVER_STATE_MONITORING, c)
      else if 0 <? c.(client_count) then (SERVER_STATE_CLIENT_CONNECTED, c)
      else (c.(current_state), c)
  | SERVER_STATE_CLIENT_CONNECTED =>
      if c.(wake_requested) && negb (power_eqb c.(ps5_power) PS5_POWER_ON)
      then (SERVER_STATE_WAKING_PS5, c)
      else if c.(client_count) =? 0 then
        (if power_eqb c.(ps5_power) PS5_POWER_ON then (SERVER_STATE_PS5_DETECTED, c)
         else (SERVER_STATE_MONITORING, c))
      else (c.(current_state), c)
  | SERVER_STATE_WAKING_PS5 =>
      if c.(wake_completed) then (SERVER_STATE_CLIENT_CONNECTED, clear_wake_flags c)
      else if 3 <? c.(error_count) then (SERVER_STATE_ERROR, c)
      else (c.(current_state), c)
  | SERVER_STATE_ERROR =>
      if c.(error_count) =? 0 then (SERVER_STATE_INIT, c)
      else (c.(current_state), c)
  end.

(** server_sm_update *)
Definition server_sm_update (ctx : option server_context_t) : result :=
  match ctx with
  | None => (None, [])
  | Some c =>
      let '(next_state, c1) := update_switch c in
      if negb (state_eqb next_state c1.(current_state))
      then server_sm_transition (Some c1) next_state
      else (Some c1, [])
  end.

(** server_sm_get_state *)
Definition server_sm_get_state (ctx : option server_context_t) : server_state_t :=
  match ctx with
  | None => SERVER_STATE_ERROR
  | Some c => c.(current_state)
  end.

Definition with_fields (c : server_context_t) (p : ps5_power_state_t) (n : ps5_network_status_t)
  (cc : Z) (wr wc : bool) (ec : Z) : server_context_t :=
  mkCtx c.(current_state) c.(last_state) p n cc wr wc ec c.(has_on_state_enter).

(** Lift of a NULL-guarded, mutation-only event handler. *)
Definition event (f : server_context_t -> server_context_t) (ctx : option server_context_t) : result :=
  match ctx with
  | None => (None, [])
  | Some c => (Some (f c), [])
  end.

(** server_sm_on_ps5_power_changed *)
Definition server_sm_on_ps5_power_changed (ctx : option server_context_t) (power : ps5_power_state_t) : result :=
  event (fun c => with_fields c power c.(ps5_network) c.(client_count)
                     c.(wake_requested) c.(wake_completed) c.(error_count)) ctx.

(** server_sm_on_ps5_network_changed *)
Definition server_sm_on_ps5_network_changed (ctx : option server_context_t) (status : ps5_network_status_t) : result :=
  event (fun c => with_fields c c.(ps5_power) status c.(client_count)
                     c.(wake_requested) c.(wake_completed) c.(error_count)) ctx.

(** server_sm_on_client_connected (the client id is only logged) *)
Definition server_sm_on_client_connected (ctx : option server_context_t) (client_id : Z) : result :=
  event (fun c => with_fields c c.(ps5_power) c.(ps5_network) (c.(client_count) + 1)
                     c.(wake_requested) c.(wake_completed) c.(error_count)) ctx.

(** server_sm_on_client_disconnected *)
Definition server_sm_on_client_disconnected (ctx : option server_context_t) (client_id : Z) : result :=
  event (fun c => with_fields c c.(ps5_power) c.(ps5_network)
                     (if 0 <? c.(client_count) then c.(client_count) - 1 else c.(client_count))
                     c.(wake_requested) c.(wake_completed) c.(error_count)) ctx.

(** server_sm_on_wake_requested *)
Definition server_sm_on_wake_requested (ctx : option server_context_t) : result :=
  event (fun c => with_fields c c.(ps5_power) c.(ps5_network) c.(client_count)
                     true c.(wake_completed) c.(error_count)) ctx.

(** server_sm_on_wake_completed: [ctx->wake_completed = success;] then
    [if (!success) ctx->error_count++;] *)
Definition server_sm_on_wake_completed (ctx : option server_context_t) (success : bool) : result :=
  event (fun c => with_fields c c.(ps5_power) c.(ps5_network) c.(client_count)
                     c.(wake_requested) success
                     (if negb success then c.(error_count) + 1 else c.(error_count))) ctx.

(** server_sm_on_error *)
Definition server_sm_on_error (ctx : option server_context_t) : result :=
  event (fun c => with_fields c c.(ps5_power) c.(ps5_network) c.(client_count)
                     c.(wake_requested) c.(wake_completed) (c.(error_count) + 1)) ctx.

(** server_sm_reset *)
Definition server_sm_reset (ctx : option server_context_t) : result :=
  match ctx with
  | None => (None, [])
  | Some c =>
      (Some (mkCtx SERVER_STATE_INIT SERVER_STATE_INIT PS5_POWER_UNKNOWN PS5_NET_UNKNOWN
                   0 false false 0 c.(has_on_state_enter)),
       update_led_for_state SERVER_STATE_INIT)
  end.

(** server_sm_set_state_callback: [registered] says whether the callback
    pointer passed is non-NULL. *)
Definition server_sm_set_state_callback (ctx : option server_context_t) (registered : bool) : result :=
  match ctx with
  | None => (None, [])
  | Some c =>
      (Some (mkCtx c.(current_state) c.(last_state) c.(ps5_power) c.(ps5_network)
                   c.(client_count) c.(wake_requested) c.(wake_completed) c.(error_count)
                   registered), [])
  end.

(** The transition table of the specification, row by row in priority
    order: (from, guard, to). This follows the specification's table, to be
    compared with [update_switch]. *)
Definition power_is_on (c : server_context_t) : bool := power_eqb c.(ps5_power) PS5_POWER_ON.

Definition spec_transition_table
  : list (server_state_t * (server_context_t -> bool) * server_state_t) :=
  [ (SERVER_STATE_INIT, (fun _ => true), SERVER_STATE_MONITORING);
    (SERVER_STATE_MONITORING, power_is_on, SERVER_STATE_PS5_DETECTED);
    (SERVER_STATE_MONITORING, (fun c => 0 <? c.(client_count)), SERVER_STATE_CLIENT_CONNECTED);
    (SERVER_STATE_MONITORING, (fun c => 5 <? c.(error_count)), SERVER_STATE_ERROR);
    (SERVER_STATE_PS5_DETECTED, (fun c => negb (power_is_on c)), SERVER_STATE_MONITORING);
    (SERVER_STATE_PS5_DETECTED, (fun c => 0 <? c.(client_count)), SERVER_STATE_CLIENT_CONNECTED);
    (SERVER_STATE_CLIENT_CONNECTED, (fun c => c.(wake_requested) && negb (power_is_on c)), SERVER_STATE_WAKING_PS5);
    (SERVER_STATE_CLIENT_CONNECTED, (fun c => (c.(client_count) =? 0) && power_is_on c), SERVER_STATE_PS5_DETECTED);
    (SERVER_STATE_CLIENT_CONNECTED, (fun c => (c.(client_count) =? 0) && negb (power_is_on c)), SERVER_STATE_MONITORING);
    (SERVER_STATE_WAKING_PS5, (fun c => c.(wake_completed)), SERVER_STATE_CLIENT_CONNECTED);
    (SERVER_STATE_WAKING_PS5, (fun c => 3 <? c.(error_count)), SERVER_STATE_ERROR);
    (SERVER_STATE_ERROR, (fun c => c.(error_count) =? 0), SERVER_STATE_INIT) ].

(** One tick by the table: the first row whose source is the current state
    and whose guard holds; no such row leaves the state unchanged. *)
Definition spec_next (c : server_context_t) : server_state_t :=
  match find (fun '(from, guard, _) => state_eqb from c.(current_state) && guard c)
             spec_transition_table with
  | Some (_, _, to) => to
  | None => c.(current_state)
  end.

(** The context server_sm_create returns (calloc'ed, then initialised). *)
Definition server_sm_create_ctx : server_context_t :=
  mkCtx SERVER_STATE_INIT SERVER_STATE_INIT PS5_POWER_UNKNOWN PS5_NET_UNKNOWN 0 false false 0 false.

(** The operations a driver of the state machine issues. *)
Inductive sm_op :=
| Tick
| PowerChanged (p : ps5_power_state_t)
| NetworkChanged (n : ps5_network_status_t)
| ClientConnected (id : Z)
| ClientDisconnected (id : Z)
| WakeRequested
| WakeCompleted (success : bool)
| ErrorEvent.

Definition sm_step (ctx : option server_context_t) (o : sm_op) : result :=
  match o with
  | Tick => server_sm_update ctx
  | PowerChanged p => server_sm_on_ps5_power_changed ctx p
  | NetworkChanged n => server_sm_on_ps5_network_changed ctx n
  | ClientConnected id => server_sm_on_client_connected ctx id
  | ClientDisconnected id => server_sm_on_client_disconnected ctx id
  | WakeRequested => server_sm_on_wake_requested ctx
  | WakeCompleted b => server_sm_on_wake_completed ctx b
  | ErrorEvent => server_sm_on_error ctx
  end.

(** Runs the operations in order; returns the final context and the state
    server_sm_get_state reports after each tick. *)
Fixpoint sm_run (ctx : option server_context_t) (ops : list sm_op)
  : option server_context_t * list server_state_t :=
  match ops with
  | [] => (ctx, [])
  | o :: rest =>
      let ctx' := fst (sm_step ctx o) in
      let '(final, seen) := sm_run ctx' rest in
      (final, match o with Tick => server_sm_get_state ctx' :: seen | _ => seen end)
  end.

(** The scenario of the specification: tick; power On; tick; client 1
    connects; tick; power becomes [p_off] (not On); wake requested; tick;
    wake completed with success; tick. *)
Definition scenario (p_off : ps5_power_state_t) : list sm_op :=
  [Tick; PowerChanged PS5_POWER_ON; Tick; ClientConnected 1; Tick;
   PowerChanged p_off; WakeRequested; Tick; WakeCompleted true; Tick].

(** A context in WAKING_PS5 with no wake completion yet. *)
Definition waking_ctx : server_context_t :=
  mkCtx SERVER_STATE_WAKING_PS5 SERVER_STATE_CLIENT_CONNECTED PS5_POWER_OFF PS5_NET_UNKNOWN
        1 true false 0 false.

End ServerSM.

(* ================================================================ *)
(** ** Wake controller (ps5_wake.c, non-TESTING build) *)
(* ================================================================ *)

Module Wake.

Definition WAKE_VERIFY_DELAY_MS : Z := 3000.
Definition WAKE_MAX_RETRIES : Z := 3.

(** ps5_wake_context_t; the callback pointer is present or absent. *)
Record ps5_wake_context_t := mkWake {
  initialized : bool;
  retry_count : Z;
  last_wake_time : Z;
  has_wake_callback : bool
}.

(** The platform collaborator: [platform_send_ps5_wake_ok k] says whether
    the k-th call (counted from 0 within one ps5_wake_send) of
    platform_send_ps5_wake() returned PLATFORM_OK. *)
Definition platform_wake := nat -> bool.

(** execute_wake_command: 0 on PLATFORM_OK, -1 otherwise. *)
Definition execute_wake_command (ok : bool) : Z := if ok then 0 else -1.

(** What one ps5_wake_send call does: its return value, the context after
    it, the arguments the wake callback received in order, and the number of
    platform wake calls made. *)
Record send_result := mkSend {
  send_ret : Z;
  send_ctx : ps5_wake_context_t;
  send_callbacks : list bool;
  send_attempts : nat
}.

Definition fire (c : ps5_wake_context_t) (b : bool) : list bool :=
  if c.(has_wake_callback) then [b] else [].

(** The tail of ps5_wake_send after the loop: failure callback, return -1. *)
Definition send_fail (c : ps5_wake_context_t) (attempts : nat) : send_result :=
  mkSend (-1) c (fire c false) attempts.

(** The [while (retry < WAKE_MAX_RETRIES)] loop; [attempt] counts the platform
    calls made so far, [now] is what time(NULL) returns; [fuel] bounds the
    iterations (3 suffice: [retry] grows by one per failing iteration). *)
Fixpoint send_loop (fuel : nat) (plat : platform_wake) (now : Z)
  (retry : Z) (attempt : nat) (c : ps5_wake_context_t) : send_result :=
  match fuel with
  | O => send_fail c attempt
  | S fuel' =>
      if retry <? WAKE_MAX_RETRIES then
        let result := execute_wake_command (plat attempt) in
        if result =? 0 then
          let c' := mkWake c.(initialized) 0 now c.(has_wake_callback) in
          mkSend 0 c' (fire c' true) (S attempt)
        else
          let retry' := retry + 1 in
          let c' := mkWake c.(initialized) retry' c.(last_wake_time) c.(has_wake_callback) in
          (* usleep(1000000) between attempts does not change the state *)
          send_loop fuel' plat now retry' (S attempt) c'
      else send_fail c attempt
  end.

(** ps5_wake_send *)
Definition ps5_wake_send (plat : platform_wake) (now : Z) (c : ps5_wake_context_t) : send_result :=
  if negb c.(initialized) then mkSend (-1) c [] 0
  else send_loop (Z.to_nat WAKE_MAX_RETRIES) plat now 0 0 c.

(** What one ps5_wake_verify call does: its return value, what it wrote
    through the out-pointer (None: nothing), how long it slept (ms), and the
    number of platform power queries. *)
Record verify_result := mkVerify {
  verify_ret : Z;
  verify_out : option ps5_power_state_t;
  verify_slept_ms : Z;
  verify_queries : nat
}.

(** ps5_wake_verify; [state_nonnull] says whether the out-pointer is
    non-NULL, [power] is what platform_get_ps5_power() returns. *)
Definition ps5_wake_verify (c : ps5_wake_context_t) (state_nonnull : bool)
  (power : platform_ps5_power_t) : verify_result :=
  if negb c.(initialized) || negb state_nonnull then mkVerify (-1) None 0 0
  else
    match power with
    | PLATFORM_PS5_ON => mkVerify 0 (Some PS5_POWER_ON) (WAKE_VERIFY_DELAY_MS) 1
    | PLATFORM_PS5_STANDBY => mkVerify 0 (Some PS5_POWER_STANDBY) (WAKE_VERIFY_DELAY_MS) 1
    | PLATFORM_PS5_OFF => mkVerify (-1) (Some PS5_POWER_OFF) (WAKE_VERIFY_DELAY_MS) 1
    | PLATFORM_PS5_OTHER _ => mkVerify (-1) (Some PS5_POWER_UNKNOWN) (WAKE_VERIFY_DELAY_MS) 1
    end.

End Wake.

(* ================================================================ *)
(** ** CEC power monitor (cec_monitor.c, non-TESTING build) *)
(* ================================================================ *)

Module Monitor.

Definition CEC_MAX_CONSECUTIVE_ERRORS : Z := 5.

(** The fields of cec_monitor_context_t the polling loop reads and writes;
    the callback pointer is present or absent. *)
Record cec_monitor_context_t := mkMon {
  current_state : ps5_power_state_t;
  last_state : ps5_power_state_t;
  last_update_time : Z;
  consecutive_errors : Z;
  has_state_callback : bool
}.

(** query_power_status *)
Definition query_power_status (power : platform_ps5_power_t) : ps5_power_state_t :=
  match power with
  | PLATFORM_PS5_ON => PS5_POWER_ON
  | PLATFORM_PS5_STANDBY => PS5_POWER_STANDBY
  | PLATFORM_PS5_OFF => PS5_POWER_OFF
  | PLATFORM_PS5_OTHER _ => PS5_POWER_UNKNOWN
  end.

(** change_ps5_state: the context after the call and the states the
    callback received. [now] is what time(NULL) returns. *)
Definition change_ps5_state (c : cec_monitor_context_t) (new_state : ps5_power_state_t) (now : Z)
  : cec_monitor_context_t * list ps5_power_state_t :=
  if power_eqb new_state c.(current_state) then (c, [])
  else
    let old_state := c.(current_state) in
    let c' := mkMon new_state old_state now c.(consecutive_errors) c.(has_state_callback) in
    (c', if c'.(has_state_callback) then [new_state] else []).

Definition set_errors (c : cec_monitor_context_t) (n : Z) : cec_monitor_context_t :=
  mkMon c.(current_state) c.(last_state) c.(last_update_time) n c.(has_state_callback).

(** One iteration of the [while (g_cec_ctx.monitoring)] loop of
    monitor_thread_func, for the platform answer [power] at time [now]. *)
Definition monitor_poll (c : cec_monitor_context_t) (power : platform_ps5_power_t) (now : Z)
  : cec_monitor_context_t * list ps5_power_state_t :=
  let state := query_power_status power in
  if negb (power_eqb state PS5_POWER_UNKNOWN) then
    let c1 := set_errors c 0 in
    if negb (power_eqb state c1.(current_state)) then change_ps5_state c1 state now
    else (c1, [])
  else
    let c1 := set_errors c (c.(consecutive_errors) + 1) in
    if CEC_MAX_CONSECUTIVE_ERRORS <=? c1.(consecutive_errors) then
      if negb (power_eqb c1.(current_state) PS5_POWER_UNKNOWN)
      then change_ps5_state c1 PS5_POWER_UNKNOWN now
      else (c1, [])
    else (c1, []).

(** The polling loop run over a sequence of (platform answer, time) pairs:
    the final context and, per iteration, the states the callback received. *)
Fixpoint monitor_run (c : cec_monitor_context_t) (polls : list (platform_ps5_power_t * Z))
  : cec_monitor_context_t * list (list ps5_power_state_t) :=
  match polls with
  | [] => (c, [])
  | (p, t) :: rest =>
      let '(c1, fired) := monitor_poll c p t in
      let '(c2, fs) := monitor_run c1 rest in
      (c2, fired :: fs)
  end.

(** The published value after each iteration. *)
Fixpoint published (c : cec_monitor_context_t) (polls : list (platform_ps5_power_t * Z))
  : list ps5_power_state_t :=
  match polls with
  | [] => []
  | (p, t) :: rest =>
      let c1 := fst (monitor_poll c p t) in
      c1.(current_state) :: published c1 rest
  end.

(** The specification's rule: per iteration, the callback receives the new
    published value when it differs from the previous one, nothing otherwise. *)
Fixpoint changes (prev : ps5_power_state_t) (l : list ps5_power_state_t)
  : list (list ps5_power_state_t) :=
  match l with
  | [] => []
  | x :: rest => (if power_eqb x prev then [] else [x]) :: changes x rest
  end.

(** A monitor publishing On with no pending failure, and six polls whose
    platform query fails. *)
Definition degrade_start : cec_monitor_context_t := mkMon PS5_POWER_ON PS5_POWER_OFF 0 0 true.
Definition six_failures : list (platform_ps5_power_t * Z) :=
  map (fun t => (PLATFORM_PS5_OTHER (-1), t)) [5; 10; 15; 20; 25; 30].

End Monitor.

(* ================================================================ *)
(** ** PS5 detector: validators and cache (ps5_detector.c) *)
(* ================================================================ *)

Module Detector.

Local Open Scope char_scope.

Definition PS5_DETECT_OK : Z := 0.
Definition PS5_DETECT_ERROR_NOT_INIT : Z := -1.
Definition PS5_DETECT_ERROR_INVALID_PARAM : Z := -3.
Definition PS5_DETECT_ERROR_CACHE_INVALID : Z := -4.
Definition PS5_IP_MAX_LEN : nat := 16.
Definition PS5_MAC_MAX_LEN : nat := 18.
Definition PS5_CACHE_MAX_AGE : Z := 3600.

(** Characters are C [unsigned char]s: [code] is their value. *)
Definition code (c : ascii) : Z := Z.of_nat (nat_of_ascii c).
Definition chr (z : Z) : ascii := ascii_of_nat (Z.to_nat z).

(** <ctype.h> in the C locale *)
Definition isdigit (c : ascii) : bool := (48 <=? code c)%Z && (code c <=? 57)%Z.
Definition isxdigit (c : ascii) : bool :=
  isdigit c || ((65 <=? code c)%Z && (code c <=? 70)%Z)
            || ((97 <=? code c)%Z && (code c <=? 102)%Z).
Definition tolower (c : ascii) : ascii :=
  if (65 <=? code c)%Z && (code c <=? 90)%Z then chr (code c + 32) else c.

(** The [for (int i = 0; i < 17; i++)] loop of ps5_detector_validate_mac,
    [i] being the index of the head of [s]. *)
Fixpoint mac_loop (i : Z) (s : string) : bool :=
  match s with
  | EmptyString => true
  | String ch rest =>
      (if (i mod 3 =? 2)%Z then Ascii.eqb ch ":" else isxdigit ch) && mac_loop (i + 1) rest
  end.

(** ps5_detector_validate_mac; [None] is the NULL pointer. *)
Definition ps5_detector_validate_mac (mac : option string) : bool :=
  match mac with
  | None => false
  | Some m => if negb (String.length m =? 17)%nat then false else mac_loop 0 m
  end.

(** The [for (p = ip; *p != '\0'; p++)] loop of ps5_detector_validate_ip
    together with the checks after it; [false] is an early [return false]. *)
Fixpoint ip_loop (s : string) (octet_count current_octet digits : Z) (has_digit : bool) : bool :=
  match s with
  | EmptyString =>
      if negb has_digit || (digits =? 0)%Z || (3 <? digits)%Z || (255 <? current_octet)%Z
      then false
      else (octet_count =? 3)%Z
  | String ch rest =>
      if Ascii.eqb ch "." then
        if negb has_digit || (digits =? 0)%Z || (3 <? digits)%Z then false
        else if (3 <=? octet_count)%Z then false
        else if (255 <? current_octet)%Z then false
        else ip_loop rest (octet_count + 1) 0 0 false
      else if isdigit ch then
        let current_octet' := (current_octet * 10 + (code ch - 48))%Z in
        if (255 <? current_octet')%Z then false
        else ip_loop rest octet_count current_octet' (digits + 1) true
      else false
  end.

(** ps5_detector_validate_ip; [None] is the NULL pointer. *)
Definition ps5_detector_validate_ip (ip : option string) : bool :=
  match ip with
  | None => false
  | Some s => if (String.length s =? 0)%nat then false else ip_loop s 0 0 0 false
  end.

(** The address format as the specification words it: the string split at
    every '.' gives exactly four fields, each a decimal octet, i.e. one to
    three decimal digits whose value is at most 255. *)
Fixpoint split_dots_acc (acc : list ascii) (s : string) : list (list ascii) :=
  match s with
  | EmptyString => [rev acc]
  | String ch rest =>
      if Ascii.eqb ch "." then rev acc :: split_dots_acc [] rest
      else split_dots_acc (ch :: acc) rest
  end.

Definition decimal_value (l : list ascii) : Z :=
  fold_left (fun v ch => (v * 10 + (code ch - 48))%Z) l 0%Z.

Definition decimal_octet (l : list ascii) : bool :=
  (1 <=? List.length l)%nat && (List.length l <=? 3)%nat && forallb isdigit l
  && (decimal_value l <=? 255)%Z.

Definition spec_valid_ip (s : string) : bool :=
  let fields := split_dots_acc [] s in
  (List.length fields =? 4)%nat && forallb decimal_octet fields.

(** The hardware-address format as the specification words it: 17
    characters, ':' at positions 2, 5, 8, 11 and 14, a hexadecimal digit at
    every other position. *)
Definition spec_valid_mac (s : string) : bool :=
  (String.length s =? 17)%nat &&
  forallb (fun i => match String.get i s with
                    | Some ch => if existsb (Nat.eqb i) [2; 5; 8; 11; 14]%nat
                                 then Ascii.eqb ch ":" else isxdigit ch
                    | None => false
                    end) (seq 0 17).

(** *** The cJSON library, as load_cache_from_file and save_cache_to_file use it *)

(** The double-quote byte (34). *)
Abbreviation QUOTE := (Ascii false true false false false true false false).

(** A parsed or built cJSON item. A number item is represented by the
    integral value of its [valuedouble]: every number this code writes is an
    integral double, and the reader converts it with [(time_t)]. *)
Inductive cJSON :=
| cJSON_NULL
| cJSON_False
| cJSON_True
| cJSON_Number (v : Z)
| cJSON_String (s : list ascii)
| cJSON_Array (items : list cJSON)
| cJSON_Object (members : list (list ascii * cJSON)).

(** [(double)x] for an integer [x]: round to nearest, ties to even, on 53
    significant bits (exact when [|x| <= 2^53]). *)
Definition double_of_Z (x : Z) : Z :=
  let a := Z.abs x in
  if (a <=? 2 ^ 53)%Z then x
  else
    let e := (Z.log2 a - 52)%Z in
    let q := (a / 2 ^ e)%Z in
    let r := (a mod 2 ^ e)%Z in
    let half := (2 ^ (e - 1))%Z in
    let q' := if (half <? r)%Z then (q + 1)%Z
              else if (r <? half)%Z then q
              else if Z.even q then q else (q + 1)%Z in
    (Z.sgn x * (q' * 2 ^ e))%Z.

(** The C string a [char *] denotes: the bytes before the first NUL. *)
Fixpoint c_string (s : list ascii) : list ascii :=
  match s with
  | [] => []
  | ch :: rest => if Ascii.eqb ch "000" then [] else ch :: c_string rest
  end.

Definition hex_digit (n : Z) : ascii :=
  if (n <? 10)%Z then chr (48 + n) else chr (87 + n).

(** One character of print_string_ptr. *)
Definition escape_char (ch : ascii) : list ascii :=
  if Ascii.eqb ch QUOTE then ["\"; QUOTE]
  else if Ascii.eqb ch "\" then ["\"; "\"]
  else if (code ch <? 32)%Z then
    match Z.to_nat (code ch) with
    | 8%nat => ["\"; "b"]
    | 12%nat => ["\"; "f"]
    | 10%nat => ["\"; "n"]
    | 13%nat => ["\"; "r"]
    | 9%nat => ["\"; "t"]
    | _ => ["\"; "u"; "0"; "0"; hex_digit (code ch / 16); hex_digit (code ch mod 16)]
    end
  else [ch].

(** print_string_ptr *)
Definition print_string (s : list ascii) : list ascii :=
  QUOTE :: flat_map escape_char s ++ [QUOTE].

(** Decimal digits of a non-negative integer, least significant first. *)
Fixpoint digits_rev (fuel : nat) (n : Z) : list ascii :=
  match fuel with
  | O => []
  | S fuel' =>
      if (n <? 10)%Z then [chr (48 + n)]
      else chr (48 + n mod 10) :: digits_rev fuel' (n / 10)
  end.

(** print_number for an integral value, written in plain decimal. cJSON
    writes a value in the [int] range with ["%d"] and any other one with
    ["%1.15g"] (["%1.17g"] when that text does not read back close enough);
    for [|v| < 10^15] each of these is the plain decimal. The fuel, the bit
    length, bounds the number of decimal digits. *)
Definition print_nonneg (n : Z) : list ascii :=
  rev (digits_rev (S (Z.to_nat (Z.log2 n))) n).

Definition print_number (v : Z) : list ascii :=
  if (v <? 0)%Z then "-" :: print_nonneg (- v) else print_nonneg v.

Fixpoint tabs (n : nat) : list ascii :=
  match n with O => [] | S n' => "009" :: tabs n' end.

(** print_value with formatting on, at nesting [depth]. *)
Fixpoint print_value (depth : nat) (j : cJSON) : list ascii :=
  match j with
  | cJSON_NULL => ["n"; "u"; "l"; "l"]
  | cJSON_False => ["f"; "a"; "l"; "s"; "e"]
  | cJSON_True => ["t"; "r"; "u"; "e"]
  | cJSON_Number v => print_number v
  | cJSON_String s => print_string s
  | cJSON_Array items =>
      "[" :: (fix go (l : list cJSON) : list ascii :=
                match l with
                | [] => []
                | x :: r => print_value (S depth) x ++
                              (match r with [] => [] | _ => [","; " "] end) ++ go r
                end) items ++ ["]"]
  | cJSON_Object members =>
      "{" :: "010" :: (fix go (l : list (list ascii * cJSON)) : list ascii :=
                match l with
                | [] => []
                | (k, v) :: r =>
                    tabs (S depth) ++ print_string k ++ [":"; "009"] ++ print_value (S depth) v
                    ++ (match r with [] => [] | _ => [","] end) ++ ["010"] ++ go r
                end) members ++ tabs depth ++ ["}"]
  end.

(** cJSON_Print *)
Definition cJSON_Print (j : cJSON) : list ascii := print_value 0 j.

(** buffer_skip_whitespace: skips every byte [<= 32]. *)
Fixpoint skip_ws (s : list ascii) : list ascii :=
  match s with
  | ch :: rest => if (code ch <=? 32)%Z then skip_ws rest else s
  | [] => []
  end.

Definition hex_value (ch : ascii) : option Z :=
  if isdigit ch then Some (code ch - 48)%Z
  else if (65 <=? code ch)%Z && (code ch <=? 70)%Z then Some (code ch - 55)%Z
  else if (97 <=? code ch)%Z && (code ch <=? 102)%Z then Some (code ch - 87)%Z
  else None.

(** parse_hex4 *)
Definition parse_hex4 (a b c d : ascii) : option Z :=
  match hex_value a, hex_value b, hex_value c, hex_value d with
  | Some x, Some y, Some z, Some w => Some (((x * 16 + y) * 16 + z) * 16 + w)%Z
  | _, _, _, _ => None
  end.

(** The UTF-8 encoding utf16_literal_to_utf8 writes for a code point. *)
Definition utf8_encode (cp : Z) : list ascii :=
  if (cp <? 128)%Z then [chr cp]
  else if (cp <? 2048)%Z then
    [chr (192 + cp / 64); chr (128 + cp mod 64)]
  else if (cp <? 65536)%Z then
    [chr (224 + cp / 4096); chr (128 + (cp / 64) mod 64); chr (128 + cp mod 64)]
  else
    [chr (240 + cp / 262144); chr (128 + (cp / 4096) mod 64);
     chr (128 + (cp / 64) mod 64); chr (128 + cp mod 64)].

(** parse_string after its opening quote: the decoded bytes and the input
    after the closing quote. *)
Fixpoint parse_string_body (s : list ascii) : option (list ascii * list ascii) :=
  match s with
  | [] => None
  | QUOTE :: rest => Some ([], rest)
  | "\" :: "u" :: a :: b :: c :: d :: rest =>
      match parse_hex4 a b c d with
      | None => None
      | Some first =>
          if (56320 <=? first)%Z && (first <=? 57343)%Z then None
          else if (55296 <=? first)%Z && (first <=? 56319)%Z then
            match rest with
            | "\" :: "u" :: e :: f :: g :: h :: rest2 =>
                match parse_hex4 e f g h with
                | Some second =>
                    if (56320 <=? second)%Z && (second <=? 57343)%Z then
                      let cp := (65536 + Z.lor (Z.shiftl (Z.land first 1023) 10)
                                                 (Z.land second 1023))%Z in
                      match parse_string_body rest2 with
                      | Some (out, r) => Some (utf8_encode cp ++ out, r)
                      | None => None
                      end
                    else None
                | None => None
                end
            | _ => None
            end
          else
            match parse_string_body rest with
            | Some (out, r) => Some (utf8_encode first ++ out, r)
            | None => None
            end
      end
  | "\" :: e :: rest =>
      let decoded :=
        match e with
        | "b" => Some "008" | "f" => Some "012" | "n" => Some "010"
        | "r" => Some "013" | "t" => Some "009"
        | QUOTE => Some QUOTE | "\" => Some "\" | "/" => Some "/"
        | _ => None
        end in
      match decoded with
      | None => None
      | Some ch =>
          match parse_string_body rest with
          | Some (out, r) => Some (ch :: out, r)
          | None => None
          end
      end
  | ch :: rest =>
      match parse_string_body rest with
      | Some (out, r) => Some (ch :: out, r)
      | None => None
      end
  end.

Fixpoint take_digits (s : list ascii) : list ascii * list ascii :=
  match s with
  | ch :: rest => if isdigit ch then let '(d, r) := take_digits rest in (ch :: d, r) else ([], s)
  | [] => ([], [])
  end.

(** parse_number on integer literals ['-'? digit+]; a literal continuing
    with a fraction or an exponent ('.', 'e', 'E') is not modelled and is
    rejected here. The value is the double strtod returns. *)
Definition parse_number (s : list ascii) : option (Z * list ascii) :=
  let '(neg, s1) := match s with "-" :: r => (true, r) | _ => (false, s) end in
  let '(ds, rest) := take_digits s1 in
  match ds with
  | [] => None
  | _ =>
      match rest with
      | "." :: _ | "e" :: _ | "E" :: _ => None
      | _ => let v := decimal_value ds in
             Some (double_of_Z (if neg then (- v)%Z else v), rest)
      end
  end.

(** parse_value, parse_array and parse_object; [fuel] bounds the nesting. *)
Fixpoint parse_value (fuel : nat) (s : list ascii) : option (cJSON * list ascii) :=
  match fuel with
  | O => None
  | S f =>
      match s with
      | "n" :: "u" :: "l" :: "l" :: r => Some (cJSON_NULL, r)
      | "f" :: "a" :: "l" :: "s" :: "e" :: r => Some (cJSON_False, r)
      | "t" :: "r" :: "u" :: "e" :: r => Some (cJSON_True, r)
      | QUOTE :: r =>
          match parse_string_body r with
          | Some (str, r') => Some (cJSON_String str, r')
          | None => None
          end
      | "[" :: r =>
          match skip_ws r with
          | "]" :: r' => Some (cJSON_Array [], r')
          | _ => match parse_array_items f r with
                 | Some (items, r') => Some (cJSON_Array items, r')
                 | None => None
                 end
          end
      | "{" :: r =>
          match skip_ws r with
          | "}" :: r' => Some (cJSON_Object [], r')
          | _ => match parse_object_members f r with
                 | Some (ms, r') => Some (cJSON_Object ms, r')
                 | None => None
                 end
          end
      | ch :: _ =>
          if Ascii.eqb ch "-" || isdigit ch then
            match parse_number s with
            | Some (v, r) => Some (cJSON_Number v, r)
            | None => None
            end
          else None
      | [] => None
      end
  end
with parse_array_items (fuel : nat) (s : list ascii) : option (list cJSON * list ascii) :=
  match fuel with
  | O => None
  | S f =>
      match parse_value f (skip_ws s) with
      | None => None
      | Some (v, r) =>
          match skip_ws r with
          | "," :: r' =>
              match parse_array_items f r' with
              | Some (vs, r'') => Some (v :: vs, r'')
              | None => None
              end
          | "]" :: r' => Some ([v], r')
          | _ => None
          end
      end
  end
with parse_object_members (fuel : nat) (s : list ascii)
  : option (list (list ascii * cJSON) * list ascii) :=
  match fuel with
  | O => None
  | S f =>
      match skip_ws s with
      | QUOTE :: r =>
          match parse_string_body r with
          | None => None
          | Some (k, r1) =>
              match skip_ws r1 with
              | ":" :: r2 =>
                  match parse_value f (skip_ws r2) with
                  | None => None
                  | Some (v, r3) =>
                      match skip_ws r3 with
                      | "," :: r4 =>
                          match parse_object_members f r4 with
                          | Some (ms, r5) => Some ((k, v) :: ms, r5)
                          | None => None
                          end
                      | "}" :: r4 => Some ([(k, v)], r4)
                      | _ => None
                      end
                  end
              | _ => None
              end
          end
      | _ => None
      end
  end.

(** skip_utf8_bom *)
Definition skip_utf8_bom (s : list ascii) : list ascii :=
  match s with
  | "239" :: "187" :: "191" :: r => r
  | _ => s
  end.

(** cJSON_Parse: the input is a C string; trailing bytes after the value
    are not checked ([require_null_terminated] is false). *)
Definition cJSON_Parse (s : list ascii) : option cJSON :=
  let input := c_string s in
  match parse_value (S (List.length input)) (skip_ws (skip_utf8_bom input)) with
  | Some (j, _) => Some j
  | None => None
  end.

Fixpoint bytes_eqb (a b : list ascii) : bool :=
  match a, b with
  | [], [] => true
  | x :: a', y :: b' => Ascii.eqb x y && bytes_eqb a' b'
  | _, _ => false
  end.

(** case_insensitive_strcmp(a, b) == 0 *)
Definition key_eq (a b : list ascii) : bool :=
  bytes_eqb (map tolower (c_string a)) (map tolower (c_string b)).

(** cJSON_GetObjectItem: the first member whose key matches. *)
Definition cJSON_GetObjectItem (j : cJSON) (key : list ascii) : option cJSON :=
  match j with
  | cJSON_Object ms =>
      match find (fun kv => key_eq (fst kv) key) ms with
      | Some (_, v) => Some v
      | None => None
      end
  | _ => None
  end.

(** *** The cache *)

(** ps5_info_t: [ip] and [mac] are the C strings held in [char ip[16]] and
    [char mac[18]]. *)
Record ps5_info_t := mkInfo {
  ip : string;
  mac : string;
  last_seen : Z;
  online : bool
}.

Definition zero_info : ps5_info_t := mkInfo EmptyString EmptyString 0 false.

(** snprintf(buf, n, "%s", s) *)
Definition snprintf_s (n : nat) (s : list ascii) : string :=
  string_of_list_ascii (firstn (n - 1) (c_string s)).

(** The cache file at [g_detector_ctx.cache_path]. *)
Inductive cache_file :=
| FileAbsent
| FileUnreadable
| FileContent (bytes : list ascii).

Definition k_ip : list ascii := ["i"; "p"].
Definition k_mac : list ascii := ["m"; "a"; "c"].
Definition k_last_seen : list ascii := ["l"; "a"; "s"; "t"; "_"; "s"; "e"; "e"; "n"].
Definition k_online : list ascii := ["o"; "n"; "l"; "i"; "n"; "e"].

(** load_cache_from_file (with a non-NULL [info]): the return code and the
    record written to [*info]; [now] is what time(NULL) returns. *)
Definition load_cache_from_file (f : cache_file) (now : Z) : Z * ps5_info_t :=
  match f with
  | FileAbsent | FileUnreadable => (PS5_DETECT_ERROR_CACHE_INVALID, zero_info)
  | FileContent bytes =>
      if (List.length bytes =? 0)%nat || (4096 <? List.length bytes)%nat
      then (PS5_DETECT_ERROR_CACHE_INVALID, zero_info)
      else
        match cJSON_Parse bytes with
        | None => (PS5_DETECT_ERROR_CACHE_INVALID, zero_info)
        | Some root =>
            match cJSON_GetObjectItem root k_ip, cJSON_GetObjectItem root k_mac,
                  cJSON_GetObjectItem root k_last_seen with
            | Some (cJSON_String ip_s), Some (cJSON_String mac_s), Some (cJSON_Number ls) =>
                let online_v := match cJSON_GetObjectItem root k_online with
                                | Some cJSON_True => true
                                | _ => false
                                end in
                let info := mkInfo (snprintf_s PS5_IP_MAX_LEN ip_s)
                                   (snprintf_s PS5_MAC_MAX_LEN mac_s) ls online_v in
                if (PS5_CACHE_MAX_AGE <? now - ls)%Z
                then (PS5_DETECT_ERROR_CACHE_INVALID, info)
                else (PS5_DETECT_OK, info)
            | _, _, _ => (PS5_DETECT_ERROR_CACHE_INVALID, zero_info)
            end
        end
  end.

(** The JSON object save_cache_to_file builds. *)
Definition cache_json (info : ps5_info_t) : cJSON :=
  cJSON_Object
    [(k_ip, cJSON_String (list_ascii_of_string info.(ip)));
     (k_mac, cJSON_String (list_ascii_of_string info.(mac)));
     (k_last_seen, cJSON_Number (double_of_Z info.(last_seen)));
     (k_online, if info.(online) then cJSON_True else cJSON_False)].

(** save_cache_to_file (with a non-NULL [info]): the return code and the
    cache file afterwards; [writable] says whether fopen(path, "w") succeeds. *)
Definition save_cache_to_file (writable : bool) (info : ps5_info_t) (f : cache_file) : Z * cache_file :=
  if writable then (PS5_DETECT_OK, FileContent (cJSON_Print (cache_json info)))
  else (PS5_DETECT_ERROR_CACHE_INVALID, f).

(** The detector context fields these calls read. *)
Record detector := mkDetector {
  initialized : bool;
  cache : cache_file
}.

(** ps5_detector_get_cached; [info_nonnull] says whether [info] is non-NULL. *)
Definition ps5_detector_get_cached (d : detector) (info_nonnull : bool) (now : Z) : Z * ps5_info_t :=
  if negb d.(initialized) then (PS5_DETECT_ERROR_NOT_INIT, zero_info)
  else if negb info_nonnull then (PS5_DETECT_ERROR_INVALID_PARAM, zero_info)
  else load_cache_from_file d.(cache) now.

(** ps5_detector_save_cache (the in-memory copy it also updates is not read
    by get_cached). *)
Definition ps5_detector_save_cache (d : detector) (writable : bool) (info : ps5_info_t) : Z * detector :=
  if negb d.(initialized) then (PS5_DETECT_ERROR_NOT_INIT, d)
  else
    let '(r, f) := save_cache_to_file writable info d.(cache) in
    (r, mkDetector d.(initialized) f).

Definition is_string_item (o : option cJSON) : bool :=
  match o with Some (cJSON_String _) => true | _ => false end.

Definition is_number_item (o : option cJSON) : bool :=
  match o with Some (cJSON_Number _) => true | _ => false end.

(** When load_cache_from_file reports the cache invalid: the file is absent
    or unreadable, empty or longer than 4096 bytes, not parsable, its "ip"
    or "mac" member (keys compared case-insensitively, first match) is not
    a string, its "last_seen" member is not a number, or last_seen is more
    than 3600 s before [now]. The "online" member plays no part. *)
Definition cache_rejected (f : cache_file) (now : Z) : Prop :=
  match f with
  | FileAbsent | FileUnreadable => True
  | FileContent bytes =>
      List.length bytes = 0%nat \/ (4096 < List.length bytes)%nat \/
      match cJSON_Parse bytes with
      | None => True
      | Some root =>
          is_string_item (cJSON_GetObjectItem root k_ip) = false \/
          is_string_item (cJSON_GetObjectItem root k_mac) = false \/
          is_number_item (cJSON_GetObjectItem root k_last_seen) = false \/
          (exists v, cJSON_GetObjectItem root k_last_seen = Some (cJSON_Number v) /\
                     (PS5_CACHE_MAX_AGE < now - v)%Z)
      end
  end.

(** A cache file holding "ip", "mac" and "last_seen" but no "online" (the
    text below with each ' read as a double quote). *)
Definition file_without_online : cache_file :=
  FileContent (map (fun ch => if Ascii.eqb ch "'" then QUOTE else ch) (list_ascii_of_string
    "{'ip':'192.168.1.5','mac':'aa:bb:cc:dd:ee:ff','last_seen':100}")).

(** A C string: no NUL byte. *)
Definition no_nul (s : list ascii) : bool := forallb (fun ch => negb (Ascii.eqb ch "000")) s.

(** A ps5_info_t as its C type holds it: [ip] fits [char ip[16]] and [mac]
    fits [char mac[18]] with their terminators. *)
Definition info_fits (info : ps5_info_t) : Prop :=
  (String.length info.(ip) <= 15)%nat /\ no_nul (list_ascii_of_string info.(ip)) = true /\
  (String.length info.(mac) <= 17)%nat /\ no_nul (list_ascii_of_string info.(mac)) = true.

(** A record whose last_seen is just above 2^53, and a detector whose
    cache file is absent. *)
Definition far_future_info : ps5_info_t :=
  mkInfo "192.168.1.5" "aa:bb:cc:dd:ee:ff" (2 ^ 53 + 1) true.
Definition fresh_detector : detector := mkDetector true FileAbsent.

(** The object cJSON_Parse returns for the text save_cache_to_file writes. *)
Definition cache_json_read (info : ps5_info_t) : cJSON :=
  cJSON_Object
    [(k_ip, cJSON_String (list_ascii_of_string info.(ip)));
     (k_mac, cJSON_String (list_ascii_of_string info.(mac)));
     (k_last_seen, cJSON_Number (double_of_Z (double_of_Z info.(last_seen))));
     (k_online, if info.(online) then cJSON_True else cJSON_False)].

End Detector.

(* ================================================================ *)
(** * Properties *)
(* ================================================================ *)

Lemma power_eqb_spec : forall a b, power_eqb a b = true <-> a = b.
Proof. intros [] []; simpl; split; congruence. Qed.

Lemma power_eqb_refl : forall a, power_eqb a a = true.
Proof. intros []; reflexivity. Qed.

Module SMFacts.
Import ServerSM.

Lemma state_eqb_spec : forall a b, state_eqb a b = true <-> a = b.
Proof. intros [] []; simpl; split; congruence. Qed.

Lemma state_eqb_refl : forall a, state_eqb a a = true.
Proof. intros []; reflexivity. Qed.

Ltac split_ifs :=
  repeat match goal with
         | |- context [if ?b then _ else _] =>
             lazymatch b with
             | true => fail | false => fail
             | _ => destruct b eqn:?
             end
         end.

(** C1. One tick of server_sm_update moves the context to the state the
    specification's priority-ordered transition table gives (the first row
    whose source is the current state and whose guard holds; unchanged when
    none holds); a change records the previous state and emits the
    indicator update and the state-enter callback; the WAKING_PS5 ->
    CLIENT_CONNECTED tick clears wake_completed and wake_requested; a tick
    on which no row applies changes nothing and emits nothing. The scenario
    (tick; power On; tick; client connects; tick; power not On; wake
    requested; tick; wake completed; tick) visits Init, Monitoring,
    PS5Detected, ClientConnected, WakingPS5, ClientConnected and ends with
    both wake flags cleared. *)
Theorem server_sm_update_follows_table :
  (forall c : server_context_t,
     exists c1,
       fst (server_sm_update (Some c)) = Some c1 /\
       c1.(current_state) = spec_next c /\
       (c.(current_state) = SERVER_STATE_WAKING_PS5 -> c.(wake_completed) = true ->
          c1.(wake_completed) = false /\ c1.(wake_requested) = false) /\
       (spec_next c = c.(current_state) ->
          c1 = c /\ snd (server_sm_update (Some c)) = []) /\
       (spec_next c <> c.(current_state) ->
          c1.(last_state) = c.(current_state) /\
          snd (server_sm_update (Some c)) =
            SetLed (map_server_state_to_led (spec_next c)) ::
            (if c.(has_on_state_enter) then [EnterCallback (spec_next c)] else []))) /\
  (forall p_off : ps5_power_state_t, p_off <> PS5_POWER_ON ->
     let '(final, seen) := sm_run (Some server_sm_create_ctx) (scenario p_off) in
     server_sm_get_state (Some server_sm_create_ctx) :: seen =
       [SERVER_STATE_INIT; SERVER_STATE_MONITORING; SERVER_STATE_PS5_DETECTED;
        SERVER_STATE_CLIENT_CONNECTED; SERVER_STATE_WAKING_PS5;
        SERVER_STATE_CLIENT_CONNECTED] /\
     exists f, final = Some f /\ f.(wake_requested) = false /\ f.(wake_completed) = false).
Proof.
  split.
  - intros [cur last pw nw cc wr wc ec cb].
    destruct cur, pw; unfold server_sm_update, update_switch, spec_next; simpl;
      split_ifs; simpl;
      (eexists; split; [reflexivity|]);
      repeat split; simpl; intros; try discriminate; try congruence.
  - intros p_off Hp.
    destruct p_off; [| | | exfalso; apply Hp; reflexivity];
      simpl; (split; [reflexivity | eexists; repeat split]).
Qed.

Lemma server_sm_update_follows_table_witness :
  (PS5_POWER_OFF <> PS5_POWER_ON /\
   let '(final, seen) := sm_run (Some server_sm_create_ctx) (scenario PS5_POWER_OFF) in
   server_sm_get_state (Some server_sm_create_ctx) :: seen =
     [SERVER_STATE_INIT; SERVER_STATE_MONITORING; SERVER_STATE_PS5_DETECTED;
      SERVER_STATE_CLIENT_CONNECTED; SERVER_STATE_WAKING_PS5;
      SERVER_STATE_CLIENT_CONNECTED] /\
   exists f, final = Some f /\ f.(wake_requested) = false /\ f.(wake_completed) = false).
Proof.
  split; [discriminate |].
  exact (proj2 server_sm_update_follows_table PS5_POWER_OFF ltac:(discriminate)).
Defined.

(** C3 (counterexample). After a wake-completed event reporting failure the
    wakeCompleted flag is not set: it holds [false], and the next tick in
    WAKING_PS5 does not take the wakeCompleted transition. *)
Lemma wake_completed_failure_leaves_flag_clear :
  exists c1,
    fst (server_sm_on_wake_completed (Some waking_ctx) false) = Some c1 /\
    c1.(wake_completed) = false /\
    server_sm_get_state (fst (server_sm_update (Some c1))) = SERVER_STATE_WAKING_PS5.
Proof. eexists; split; [reflexivity | split; reflexivity]. Qed.

(** C3 (amended). server_sm_on_wake_completed(ctx, success) sets
    wake_completed to [success] (set on success, cleared on failure),
    increments error_count exactly when [success] is false, leaves every
    other field unchanged and performs no transition (no effect). *)
Theorem server_sm_on_wake_completed_fields :
  forall (c : server_context_t) (success : bool),
    server_sm_on_wake_completed (Some c) success =
      (Some (mkCtx c.(current_state) c.(last_state) c.(ps5_power) c.(ps5_network)
                   c.(client_count) c.(wake_requested) success
                   (if success then c.(error_count) else c.(error_count) + 1)
                   c.(has_on_state_enter)), []).
Proof. intros c []; reflexivity. Qed.

(** C9. Every event operation (power-changed, network-changed,
    client-connected, client-disconnected, wake-requested, wake-completed,
    error) leaves current_state and last_state unchanged and emits no
    indicator update and no state-enter callback. *)
Theorem events_do_not_transition :
  forall (c : server_context_t) (p : ps5_power_state_t) (n : ps5_network_status_t)
         (id : Z) (success : bool),
    Forall (fun r : result =>
              exists c', r = (Some c', []) /\
                         c'.(current_state) = c.(current_state) /\
                         c'.(last_state) = c.(last_state))
      [server_sm_on_ps5_power_changed (Some c) p;
       server_sm_on_ps5_network_changed (Some c) n;
       server_sm_on_client_connected (Some c) id;
       server_sm_on_client_disconnected (Some c) id;
       server_sm_on_wake_requested (Some c);
       server_sm_on_wake_completed (Some c) success;
       server_sm_on_error (Some c)].
Proof.
  intros c p n id success.
  repeat constructor; eexists; (split; [reflexivity | split; reflexivity]).
Qed.

(** C10. With a NULL context every public state-machine operation (update,
    transition, reset, each event operation, the callback setter) returns
    without effect, and server_sm_get_state(NULL) is SERVER_STATE_ERROR. *)
Theorem null_context_tolerated :
  forall (s : server_state_t) (p : ps5_power_state_t) (n : ps5_network_status_t)
         (id : Z) (success registered : bool),
    Forall (fun r : result => r = (None, []))
      [server_sm_update None;
       server_sm_transition None s;
       server_sm_reset None;
       server_sm_on_ps5_power_changed None p;
       server_sm_on_ps5_network_changed None n;
       server_sm_on_client_connected None id;
       server_sm_on_client_disconnected None id;
       server_sm_on_wake_requested None;
       server_sm_on_wake_completed None success;
       server_sm_on_error None;
       server_sm_set_state_callback None registered] /\
    server_sm_get_state None = SERVER_STATE_ERROR.
Proof. intros; split; [repeat constructor | reflexivity]. Qed.

End SMFacts.

Module WakeFacts.
Import Wake.

(** C2 (code_bug evidence). On an initialised controller with a non-NULL
    out-pointer, a platform answer of STANDBY makes ps5_wake_verify write
    STANDBY and return 0, the success code (the header documents "0 if PS5
    is ON, negative error code otherwise"). *)
Theorem ps5_wake_verify_standby_returns_success :
  forall c : ps5_wake_context_t, c.(initialized) = true ->
    ps5_wake_verify c true PLATFORM_PS5_STANDBY =
      mkVerify 0 (Some PS5_POWER_STANDBY) WAKE_VERIFY_DELAY_MS 1.
Proof. intros c Hi. unfold ps5_wake_verify. rewrite Hi. reflexivity. Qed.

Lemma ps5_wake_verify_standby_returns_success_witness :
  ps5_wake_verify (mkWake true 0 0 false) true PLATFORM_PS5_STANDBY =
    mkVerify 0 (Some PS5_POWER_STANDBY) WAKE_VERIFY_DELAY_MS 1.
Proof. apply (ps5_wake_verify_standby_returns_success (mkWake true 0 0 false)). reflexivity. Defined.

(** C4. On an initialised controller with a registered callback,
    ps5_wake_send makes at most 3 platform wake calls; when call [k] (k < 3)
    is the first to succeed it returns 0 after [k+1] calls, records [now] as
    the wake time, resets retry_count to 0 and calls the callback once with
    true; when all calls fail it makes exactly 3 calls, calls the callback
    once with false and returns -1. *)
Theorem ps5_wake_send_bounded_retries :
  forall (plat : platform_wake) (now : Z) (c : ps5_wake_context_t),
    c.(initialized) = true -> c.(has_wake_callback) = true ->
    (send_attempts (ps5_wake_send plat now c) <= 3)%nat /\
    (forall k, (k < 3)%nat -> plat k = true -> (forall j, (j < k)%nat -> plat j = false) ->
       ps5_wake_send plat now c = mkSend 0 (mkWake true 0 now true) [true] (S k)) /\
    ((forall j, (j < 3)%nat -> plat j = false) ->
       send_ret (ps5_wake_send plat now c) = -1 /\
       send_attempts (ps5_wake_send plat now c) = 3%nat /\
       send_callbacks (ps5_wake_send plat now c) = [false]).
Proof.
  intros plat now [ini rc lt cb] Hi Hcb; simpl in Hi, Hcb; subst ini cb.
  unfold ps5_wake_send; simpl.
  split; [| split].
  - destruct (plat 0%nat), (plat 1%nat), (plat 2%nat); simpl; lia.
  - intros k Hk Hok Hprev.
    destruct k as [| [| [| k]]]; [| | | lia].
    + rewrite Hok; reflexivity.
    + rewrite (Hprev 0%nat ltac:(lia)), Hok; reflexivity.
    + rewrite (Hprev 0%nat ltac:(lia)), (Hprev 1%nat ltac:(lia)), Hok; reflexivity.
  - intros Hfail.
    rewrite (Hfail 0%nat ltac:(lia)), (Hfail 1%nat ltac:(lia)), (Hfail 2%nat ltac:(lia)).
    repeat split.
Qed.

Lemma ps5_wake_send_bounded_retries_witness :
  send_ret (ps5_wake_send (fun _ => false) 100 (mkWake true 0 0 true)) = -1 /\
  send_attempts (ps5_wake_send (fun _ => false) 100 (mkWake true 0 0 true)) = 3%nat /\
  send_callbacks (ps5_wake_send (fun _ => false) 100 (mkWake true 0 0 true)) = [false].
Proof.
  apply (proj2 (proj2 (ps5_wake_send_bounded_retries (fun _ => false) 100 (mkWake true 0 0 true)
                         eq_refl eq_refl))).
  intros; reflexivity.
Defined.

End WakeFacts.

Module MonitorFacts.
Import Monitor.

Lemma monitor_poll_callback_flag : forall c p t,
  (fst (monitor_poll c p t)).(has_state_callback) = c.(has_state_callback).
Proof.
  intros [cur last lt err cb] p t; unfold monitor_poll, change_ps5_state; simpl.
  destruct (query_power_status p), cur; simpl;
    repeat (destruct (_ <=? _)); reflexivity.
Qed.

Lemma monitor_poll_fires_on_change : forall c p t,
  c.(has_state_callback) = true ->
  snd (monitor_poll c p t) =
    (if power_eqb (fst (monitor_poll c p t)).(current_state) c.(current_state)
     then [] else [(fst (monitor_poll c p t)).(current_state)]).
Proof.
  intros [cur last lt err cb] p t Hcb; simpl in Hcb; subst cb.
  unfold monitor_poll, change_ps5_state; simpl.
  destruct (query_power_status p), cur; simpl;
    repeat (destruct (_ <=? _)); reflexivity.
Qed.

Lemma monitor_run_unknown_stays : forall c polls,
  c.(current_state) = PS5_POWER_UNKNOWN ->
  Forall (fun pt => query_power_status (fst pt) = PS5_POWER_UNKNOWN) polls ->
  snd (monitor_run c polls) = repeat [] (List.length polls) /\
  (fst (monitor_run c polls)).(current_state) = PS5_POWER_UNKNOWN.
Proof.
  intros c polls; revert c; induction polls as [| [p t] rest IH];
    intros [cur last lt err cb] Hc Hall; simpl in Hc; subst cur.
  - simpl; auto.
  - inversion Hall as [| ? ? Hp Hrest]; subst; simpl in Hp.
    destruct (IH (mkMon PS5_POWER_UNKNOWN last lt (err + 1) cb) eq_refl Hrest) as [H1 H2].
    simpl. unfold monitor_poll. rewrite Hp. simpl.
    destruct (CEC_MAX_CONSECUTIVE_ERRORS <=? err + 1); simpl;
      unfold set_errors in *; simpl in *;
      destruct (monitor_run _ rest) as [cf fs]; simpl in *; subst; auto.
Qed.

(** C5. With a registered callback: (1) over every sequence of polls, the
    callback fires in an iteration exactly when the value published after
    it differs from the one published before it, and then with that new
    value; (2) from a published state other than Unknown with no pending
    query failure, five failed polls (platform answers mapped to Unknown)
    fire nothing on the first four and fire Unknown once on the fifth, and
    any number of further failed polls fire nothing and keep Unknown. *)
Theorem monitor_callback_on_distinct_change :
  (forall (c : cec_monitor_context_t) (polls : list (platform_ps5_power_t * Z)),
     c.(has_state_callback) = true ->
     snd (monitor_run c polls) = changes c.(current_state) (published c polls)) /\
  (forall (c : cec_monitor_context_t) (polls : list (platform_ps5_power_t * Z)) (k : nat),
     c.(has_state_callback) = true ->
     c.(current_state) <> PS5_POWER_UNKNOWN ->
     c.(consecutive_errors) = 0 ->
     List.length polls = (5 + k)%nat ->
     Forall (fun pt => query_power_status (fst pt) = PS5_POWER_UNKNOWN) polls ->
     snd (monitor_run c polls) = [[]; []; []; []; [PS5_POWER_UNKNOWN]] ++ repeat [] k /\
     (fst (monitor_run c polls)).(current_state) = PS5_POWER_UNKNOWN).
Proof.
  split.
  - intros c polls; revert c; induction polls as [| [p t] rest IH]; intros c Hcb.
    + reflexivity.
    + simpl.
      pose proof (monitor_poll_fires_on_change c p t Hcb) as Hf.
      pose proof (monitor_poll_callback_flag c p t) as Hflag.
      destruct (monitor_poll c p t) as [c1 fired] eqn:E; simpl in *.
      destruct (monitor_run c1 rest) as [c2 fs] eqn:E2.
      specialize (IH c1 ltac:(congruence)). rewrite E2 in IH; simpl in IH.
      rewrite Hf, IH. reflexivity.
  - intros [cur last lt err cb] polls k Hcb Hcur Herr Hlen Hall;
      simpl in Hcb, Hcur, Herr; subst cb err.
    destruct polls as [| [p1 t1] [| [p2 t2] [| [p3 t3] [| [p4 t4] [| [p5 t5] rest]]]]];
      simpl in Hlen; try lia.
    inversion Hall as [| ? ? H1 Hall1]; subst.
    inversion Hall1 as [| ? ? H2 Hall2]; subst.
    inversion Hall2 as [| ? ? H3 Hall3]; subst.
    inversion Hall3 as [| ? ? H4 Hall4]; subst.
    inversion Hall4 as [| ? ? H5 Hrest]; subst.
    simpl in H1, H2, H3, H4, H5.
    simpl. unfold monitor_poll; rewrite H1, H2, H3, H4, H5; simpl.
    unfold change_ps5_state; simpl.
    destruct cur; [exfalso; apply Hcur; reflexivity | | |]; simpl;
      (match goal with
       | |- context [monitor_run ?c0 rest] =>
           destruct (monitor_run_unknown_stays c0 rest eq_refl Hrest) as [Ha Hb];
           destruct (monitor_run c0 rest) as [cf fs]; simpl in *
       end;
       rewrite Ha; split; [injection Hlen as ->; reflexivity | exact Hb]).
Qed.

Lemma monitor_callback_on_distinct_change_witness :
  snd (monitor_run degrade_start six_failures) =
    [[]; []; []; []; [PS5_POWER_UNKNOWN]] ++ repeat [] 1 /\
  (fst (monitor_run degrade_start six_failures)).(current_state) = PS5_POWER_UNKNOWN.
Proof.
  apply (proj2 monitor_callback_on_distinct_change degrade_start six_failures 1%nat);
    [reflexivity | discriminate | reflexivity | reflexivity |].
  repeat constructor.
Defined.

End MonitorFacts.

Module ValidatorFacts.
Import Detector.
Local Open Scope char_scope.

Lemma mac_equiv : forall s, ps5_detector_validate_mac (Some s) = spec_valid_mac s.
Proof.
  intros s. unfold ps5_detector_validate_mac, spec_valid_mac.
  destruct (String.length s =? 17)%nat eqn:E; [| reflexivity].
  apply Nat.eqb_eq in E.
  do 17 (destruct s as [| ? s]; [discriminate |]).
  destruct s; [| discriminate].
  reflexivity.
Qed.

Definition dec_step (v : Z) (ch : ascii) : Z := (v * 10 + (code ch - 48))%Z.

Lemma isdigit_range : forall ch, isdigit ch = true -> (0 <= code ch - 48 <= 9)%Z.
Proof.
  intros ch H; unfold isdigit in H; apply andb_true_iff in H as [H1 H2].
  apply Z.leb_le in H1; apply Z.leb_le in H2; lia.
Qed.

Lemma fold_dec_mono : forall l v, (0 <= v)%Z -> forallb isdigit l = true ->
  (v <= fold_left dec_step l v)%Z.
Proof.
  induction l as [| ch l IH]; intros v Hv Hd; simpl in *; [lia |].
  apply andb_true_iff in Hd as [Hc Hl].
  pose proof (isdigit_range ch Hc).
  specialize (IH (dec_step v ch)). unfold dec_step in *. 
  assert (v <= v * 10 + (code ch - 48))%Z by lia.
  specialize (IH ltac:(lia) Hl). lia.
Qed.

Lemma decimal_value_app_mono : forall l1 l2,
  forallb isdigit (l1 ++ l2) = true -> (decimal_value l1 <= decimal_value (l1 ++ l2))%Z.
Proof.
  intros l1 l2 H. rewrite forallb_app in H; apply andb_true_iff in H as [H1 H2].
  unfold decimal_value. rewrite fold_left_app.
  apply fold_dec_mono; [| exact H2].
  apply (fold_dec_mono l1 0); [lia | exact H1].
Qed.

Lemma decimal_value_snoc : forall l ch,
  decimal_value (l ++ [ch]) = (decimal_value l * 10 + (code ch - 48))%Z.
Proof. intros; unfold decimal_value; rewrite fold_left_app; reflexivity. Qed.

Lemma split_dots_head : forall s acc, exists tail fields,
  split_dots_acc acc s = (rev acc ++ tail) :: fields.
Proof.
  induction s as [| ch s IH]; intros acc; simpl.
  - exists [], []; rewrite app_nil_r; reflexivity.
  - destruct (Ascii.eqb ch ".").
    + exists [], (split_dots_acc [] s); rewrite app_nil_r; reflexivity.
    + destruct (IH (ch :: acc)) as [tail [fields E]]; rewrite E.
      exists (ch :: tail), fields; simpl; rewrite <- app_assoc; reflexivity.
Qed.

Lemma split_dots_nonempty : forall s acc, (1 <= List.length (split_dots_acc acc s))%nat.
Proof.
  intros s acc; destruct (split_dots_head s acc) as [t [f E]]; rewrite E; simpl; lia.
Qed.

Lemma decimal_octet_false_if_big : forall l tail,
  (255 < decimal_value l)%Z -> decimal_octet (l ++ tail) = false.
Proof.
  intros l tail H. unfold decimal_octet.
  destruct (forallb isdigit (l ++ tail)) eqn:Ed.
  - pose proof (decimal_value_app_mono l tail Ed).
    replace (decimal_value (l ++ tail) <=? 255)%Z with false by (symmetry; apply Z.leb_gt; lia).
    rewrite !andb_false_r; reflexivity.
  - rewrite andb_false_r, andb_false_l; reflexivity.
Qed.

Lemma decimal_octet_false_if_nondigit : forall l ch tail,
  isdigit ch = false -> decimal_octet (l ++ ch :: tail) = false.
Proof.
  intros l ch tail H. unfold decimal_octet.
  rewrite forallb_app; simpl; rewrite H. rewrite andb_false_r. simpl.
  rewrite !andb_false_r, andb_false_l. reflexivity.
Qed.

Lemma forallb_rev_eq : forall (f : ascii -> bool) l, forallb f (rev l) = forallb f l.
Proof.
  intros f l; induction l as [| x l IH]; simpl; [reflexivity |].
  rewrite forallb_app, IH; simpl; rewrite andb_true_r, andb_comm; reflexivity.
Qed.

Ltac bool_facts :=
  repeat match goal with
         | H : (_ =? _)%nat = true |- _ => apply Nat.eqb_eq in H
         | H : (_ =? _)%nat = false |- _ => apply Nat.eqb_neq in H
         | H : (_ <=? _)%nat = true |- _ => apply Nat.leb_le in H
         | H : (_ <=? _)%nat = false |- _ => apply Nat.leb_gt in H
         | H : (_ =? _)%Z = true |- _ => apply Z.eqb_eq in H
         | H : (_ =? _)%Z = false |- _ => apply Z.eqb_neq in H
         | H : (_ <? _)%Z = true |- _ => apply Z.ltb_lt in H
         | H : (_ <? _)%Z = false |- _ => apply Z.ltb_ge in H
         | H : (_ <=? _)%Z = true |- _ => apply Z.leb_le in H
         | H : (_ <=? _)%Z = false |- _ => apply Z.leb_gt in H
         end.

Ltac split_cmp :=
  repeat match goal with
         | |- context [(?a =? ?b)%nat] => destruct (a =? b)%nat eqn:?
         | |- context [(?a <=? ?b)%nat] => destruct (a <=? b)%nat eqn:?
         | |- context [(?a =? ?b)%Z] => destruct (a =? b)%Z eqn:?
         | |- context [(?a <? ?b)%Z] => destruct (a <? b)%Z eqn:?
         | |- context [(?a <=? ?b)%Z] => destruct (a <=? b)%Z eqn:?
         end; bool_facts; simpl.

(** The loop of ps5_detector_validate_ip against the field split: with the
    digits [acc] of the current field read so far (reversed) and
    [octet_count] fields completed, the loop's verdict is that of the
    specification on the fields still to come. *)
Lemma ip_loop_split : forall s oc acc,
  (0 <= oc <= 3)%Z -> forallb isdigit acc = true -> (decimal_value (rev acc) <= 255)%Z ->
  ip_loop s oc (decimal_value (rev acc)) (Z.of_nat (List.length acc))
          (negb (List.length acc =? 0)%nat) =
  (Nat.eqb (List.length (split_dots_acc acc s) + Z.to_nat oc) 4 &&
   forallb decimal_octet (split_dots_acc acc s)).
Proof.
  induction s as [| ch s IH]; intros oc acc Hoc Hd Hv.
  - simpl. unfold decimal_octet. rewrite length_rev, forallb_rev_eq, Hd.
    rewrite andb_true_r.
    split_cmp; try reflexivity; lia.
  - simpl. destruct (Ascii.eqb ch ".") eqn:Edot.
    + (* a separator ends the current field *)
      cbn [List.length forallb]. unfold decimal_octet at 1.
      rewrite length_rev, forallb_rev_eq, Hd, andb_true_r.
      pose proof (split_dots_nonempty s []) as Hne.
      destruct (3 <=? oc)%Z eqn:E3.
      * bool_facts.
        replace (S (List.length (split_dots_acc [] s)) + Z.to_nat oc =? 4)%nat with false
          by (symmetry; apply Nat.eqb_neq; lia).
        destruct (_ || _); reflexivity.
      * bool_facts.
        pose proof (IH (oc + 1)%Z [] ltac:(lia) eq_refl ltac:(cbn; lia)) as IH'.
        cbn in IH'. rewrite IH'.
        replace (Z.to_nat (oc + 1)) with (S (Z.to_nat oc)) by lia.
        rewrite Nat.add_succ_r. cbn [Nat.add].
        split_cmp; try reflexivity; try lia.
    + destruct (isdigit ch) eqn:Edig.
      * pose proof (isdigit_range ch Edig) as Hr.
        destruct (255 <? decimal_value (rev acc) * 10 + (code ch - 48))%Z eqn:Eb.
        -- destruct (split_dots_head s (ch :: acc)) as [tail [fields E]]; rewrite E.
           cbn [forallb]. simpl rev.
           rewrite decimal_octet_false_if_big
             by (rewrite decimal_value_snoc; apply Z.ltb_lt; exact Eb).
           rewrite andb_false_l, andb_false_r. reflexivity.
        -- bool_facts.
           pose proof (IH oc (ch :: acc) Hoc ltac:(simpl; rewrite Edig, Hd; reflexivity)
                         ltac:(simpl rev; rewrite decimal_value_snoc; lia)) as IH'.
           simpl rev in IH'; rewrite decimal_value_snoc in IH'.
           cbn [List.length] in IH'. rewrite Nat2Z.inj_succ in IH'.
           rewrite <- IH'; f_equal; lia.
      * destruct (split_dots_head s (ch :: acc)) as [tail [fields E]]; rewrite E.
        cbn [forallb]. simpl rev. rewrite <- app_assoc. simpl.
        rewrite decimal_octet_false_if_nondigit by exact Edig.
        rewrite andb_false_l, andb_false_r. reflexivity.
Qed.

Theorem ip_equiv : forall s, ps5_detector_validate_ip (Some s) = spec_valid_ip s.
Proof.
  intros s. unfold ps5_detector_validate_ip, spec_valid_ip.
  pose proof (ip_loop_split s 0 [] ltac:(lia) eq_refl ltac:(cbn; lia)) as H.
  cbn in H. rewrite H, Nat.add_0_r.
  destruct s; reflexivity.
Qed.

(** C8. For every string, ps5_detector_validate_ip accepts exactly the
    strings made of four '.'-separated fields each of one to three decimal
    digits with value at most 255 (so no empty field: no leading, trailing
    or doubled separator), and ps5_detector_validate_mac accepts exactly the
    17-character strings with ':' at positions 2, 5, 8, 11, 14 and a
    hexadecimal digit elsewhere; in particular "192.168.1.1" is valid and
    "192.168.1.256" and "1.2.3" are not. *)
Theorem validators_decide_formats :
  (forall s : string,
     ps5_detector_validate_ip (Some s) = spec_valid_ip s /\
     ps5_detector_validate_mac (Some s) = spec_valid_mac s) /\
  ps5_detector_validate_ip (Some "192.168.1.1"%string) = true /\
  ps5_detector_validate_ip (Some "192.168.1.256"%string) = false /\
  ps5_detector_validate_ip (Some "1.2.3"%string) = false /\
  ps5_detector_validate_mac (Some "aa:bb:cc:dd:ee:ff"%string) = true /\
  ps5_detector_validate_mac (Some "aa:bb:cc:dd:ee:fg"%string) = false.
Proof.
  split; [intros s; split; [apply ip_equiv | apply mac_equiv] |].
  repeat split; reflexivity.
Qed.

End ValidatorFacts.

Module CacheFacts.
Import Detector.
Local Open Scope char_scope.

(** Characters and their codes. *)
Lemma code_chr : forall z, (0 <= z < 256)%Z -> code (chr z) = z.
Proof.
  intros z Hz. unfold code, chr. rewrite nat_ascii_embedding by lia. lia.
Qed.

(** One escaped character reads back as itself. *)
Lemma escape_char_parse : forall ch tail,
  parse_string_body (escape_char ch ++ tail) =
  match parse_string_body tail with
  | Some (out, r) => Some (ch :: out, r)
  | None => None
  end.
Proof.
  intros [[] [] [] [] [] [] [] []] tail; reflexivity.
Qed.

Lemma parse_string_escaped : forall l rest,
  parse_string_body (flat_map escape_char l ++ QUOTE :: rest) = Some (l, rest).
Proof.
  induction l as [| ch l IH]; intros rest; [reflexivity |].
  simpl flat_map. rewrite <- app_assoc, escape_char_parse, IH. reflexivity.
Qed.

Lemma escape_char_no_nul : forall ch, no_nul (escape_char ch) = true.
Proof. intros [[] [] [] [] [] [] [] []]; reflexivity. Qed.

Lemma escape_char_length : forall ch, (List.length (escape_char ch) <= 6)%nat.
Proof. intros [[] [] [] [] [] [] [] []]; simpl; lia. Qed.

Lemma no_nul_app : forall a b, no_nul (a ++ b) = no_nul a && no_nul b.
Proof. intros; apply forallb_app. Qed.

Lemma escaped_no_nul : forall l, no_nul (flat_map escape_char l) = true.
Proof.
  induction l as [| ch l IH]; [reflexivity |].
  simpl flat_map; rewrite no_nul_app, escape_char_no_nul, IH; reflexivity.
Qed.

Lemma escaped_length : forall l,
  (List.length (flat_map escape_char l) <= 6 * List.length l)%nat.
Proof.
  induction l as [| ch l IH]; [simpl; lia |].
  simpl flat_map; rewrite length_app. pose proof (escape_char_length ch). simpl List.length. lia.
Qed.

Lemma c_string_no_nul : forall l, no_nul l = true -> c_string l = l.
Proof.
  induction l as [| ch l IH]; intros H; [reflexivity |].
  simpl in H |- *. apply andb_true_iff in H as [H1 H2].
  destruct (Ascii.eqb ch "000"); [discriminate |]. rewrite IH; auto.
Qed.

(** Digits. *)
Lemma isdigit_chr : forall k, (0 <= k <= 9)%Z -> isdigit (chr (48 + k)) = true.
Proof.
  intros k Hk. unfold isdigit. rewrite code_chr by lia.
  apply andb_true_iff; split; apply Z.leb_le; lia.
Qed.

Lemma digits_rev_ok : forall fuel n, (1 <= fuel)%nat -> (0 <= n)%Z ->
  (n < 10 ^ Z.of_nat fuel)%Z ->
  digits_rev fuel n <> [] /\ forallb isdigit (digits_rev fuel n) = true /\
  decimal_value (rev (digits_rev fuel n)) = n /\ (List.length (digits_rev fuel n) <= fuel)%nat.
Proof.
  induction fuel as [| fuel IH]; intros n Hf Hn Hlt; [lia |].
  cbn [digits_rev]. destruct (n <? 10)%Z eqn:E.
  - apply Z.ltb_lt in E.
    split; [discriminate |]. cbn [forallb]. rewrite isdigit_chr by lia.
    split; [reflexivity |]. split; [| cbn [List.length]; lia].
    unfold decimal_value; cbn [rev app fold_left]. rewrite code_chr by lia. lia.
  - apply Z.ltb_ge in E.
    assert (Hf' : (1 <= fuel)%nat).
    { destruct fuel; [| lia]. simpl in Hlt. lia. }
    assert (Hq : (n / 10 < 10 ^ Z.of_nat fuel)%Z).
    { rewrite Nat2Z.inj_succ, Z.pow_succ_r in Hlt by lia.
      apply Z.div_lt_upper_bound; lia. }
    destruct (IH (n / 10)%Z Hf' ltac:(apply Z.div_pos; lia) Hq) as (_ & Hd & Hv & Hl).
    pose proof (Z.mod_pos_bound n 10 ltac:(lia)).
    split; [discriminate |]. cbn [forallb]. rewrite isdigit_chr, Hd by lia.
    split; [reflexivity |]. split; [| cbn [List.length]; lia].
    cbn [rev].
    rewrite (ValidatorFacts.decimal_value_snoc (rev (digits_rev fuel (n / 10)))), Hv, code_chr by lia.
    pose proof (Z.div_mod n 10 ltac:(lia)). lia.
Qed.

Lemma digit_cases : forall d, isdigit d = true ->
  d = "0" \/ d = "1" \/ d = "2" \/ d = "3" \/ d = "4" \/
  d = "5" \/ d = "6" \/ d = "7" \/ d = "8" \/ d = "9".
Proof.
  intros [[] [] [] [] [] [] [] []] H; try discriminate H; auto 10.
Qed.

Lemma print_nonneg_ok : forall n, (0 <= n)%Z ->
  print_nonneg n <> [] /\ forallb isdigit (print_nonneg n) = true /\
  decimal_value (print_nonneg n) = n /\
  (List.length (print_nonneg n) <= S (Z.to_nat (Z.log2 n)))%nat.
Proof.
  intros n Hn. unfold print_nonneg.
  assert (Hlt : (n < 10 ^ Z.of_nat (S (Z.to_nat (Z.log2 n))))%Z).
  { pose proof (Z.log2_nonneg n).
    rewrite Nat2Z.inj_succ, Z2Nat.id by lia.
    destruct (Z.eq_dec n 0) as [-> | Hn0]; [apply Z.pow_pos_nonneg; lia |].
    destruct (Z.log2_spec n ltac:(lia)) as [_ H2].
    eapply Z.lt_le_trans; [exact H2 |].
    apply Z.pow_le_mono_l; lia. }
  destruct (digits_rev_ok (S (Z.to_nat (Z.log2 n))) n ltac:(lia) Hn Hlt) as (Hne & Hd & Hv & Hl).
  split; [| split; [| split]].
  - intros H. apply Hne. apply (f_equal (@rev ascii)) in H. rewrite rev_involutive in H. exact H.
  - rewrite ValidatorFacts.forallb_rev_eq. exact Hd.
  - exact Hv.
  - rewrite length_rev. exact Hl.
Qed.

Lemma take_digits_app : forall ds c rest, forallb isdigit ds = true -> isdigit c = false ->
  take_digits (ds ++ c :: rest) = (ds, c :: rest).
Proof.
  induction ds as [| d ds IH]; intros c rest Hd Hc; simpl.
  - rewrite Hc. reflexivity.
  - simpl in Hd. apply andb_true_iff in Hd as [Hd1 Hd2].
    rewrite Hd1, IH by assumption. reflexivity.
Qed.

Lemma parse_number_pos : forall ds rest, ds <> [] -> forallb isdigit ds = true ->
  parse_number (ds ++ "," :: rest) = Some (double_of_Z (decimal_value ds), "," :: rest).
Proof.
  intros [| d ds] rest Hne Hd; [congruence |].
  pose proof (take_digits_app (d :: ds) "," rest Hd eq_refl) as Ht.
  simpl in Hd. apply andb_true_iff in Hd as [Hd1 _].
  cbn [app] in Ht |- *.
  destruct (digit_cases d Hd1) as [-> | [-> | [-> | [-> | [-> | [-> | [-> | [-> | [-> | ->]]]]]]]]];
    unfold parse_number; cbv beta iota; rewrite Ht; reflexivity.
Qed.

Lemma parse_number_neg : forall ds rest, ds <> [] -> forallb isdigit ds = true ->
  parse_number ("-" :: ds ++ "," :: rest) = Some (double_of_Z (- decimal_value ds), "," :: rest).
Proof.
  intros [| d ds] rest Hne Hd; [congruence |].
  pose proof (take_digits_app (d :: ds) "," rest Hd eq_refl) as Ht.
  unfold parse_number; cbv beta iota. rewrite Ht. reflexivity.
Qed.

Lemma parse_value_digit : forall f d r, isdigit d = true ->
  parse_value (S f) (d :: r) =
  match parse_number (d :: r) with
  | Some (v, r') => Some (cJSON_Number v, r')
  | None => None
  end.
Proof.
  intros f d r Hd.
  destruct (digit_cases d Hd) as [-> | [-> | [-> | [-> | [-> | [-> | [-> | [-> | [-> | ->]]]]]]]]];
    reflexivity.
Qed.

Lemma skip_ws_digit : forall d r, isdigit d = true -> skip_ws (d :: r) = d :: r.
Proof.
  intros d r Hd. pose proof (ValidatorFacts.isdigit_range d Hd). simpl.
  destruct (code d <=? 32)%Z eqn:E; [apply Z.leb_le in E; lia | reflexivity].
Qed.

(** The number cJSON_Print writes for [v] reads back as [(double)v]. *)
Lemma parse_value_number : forall f v rest,
  parse_value (S f) (skip_ws (print_number v ++ "," :: rest)) =
  Some (cJSON_Number (double_of_Z v), "," :: rest).
Proof.
  intros f v rest. unfold print_number. destruct (v <? 0)%Z eqn:E.
  - apply Z.ltb_lt in E.
    destruct (print_nonneg_ok (- v) ltac:(lia)) as (Hne & Hd & Hv & _).
    change (skip_ws (("-" :: print_nonneg (- v)) ++ "," :: rest))
      with ("-" :: print_nonneg (- v) ++ "," :: rest).
    change (parse_value (S f) ("-" :: print_nonneg (- v) ++ "," :: rest))
      with (match parse_number ("-" :: print_nonneg (- v) ++ "," :: rest) with
            | Some (v, r') => Some (cJSON_Number v, r')
            | None => None
            end).
    rewrite parse_number_neg, Hv by assumption. rewrite Z.opp_involutive. reflexivity.
  - apply Z.ltb_ge in E.
    destruct (print_nonneg_ok v E) as (Hne & Hd & Hv & _).
    destruct (print_nonneg v) as [| d ds] eqn:Ep; [congruence |].
    simpl in Hd. apply andb_true_iff in Hd as [Hd1 Hd2].
    cbn [app]. rewrite skip_ws_digit, parse_value_digit by assumption.
    change (d :: ds ++ "," :: rest) with ((d :: ds) ++ "," :: rest).
    rewrite parse_number_pos, Hv; [reflexivity | congruence |].
    simpl; rewrite Hd1, Hd2; reflexivity.
Qed.

Lemma print_string_app : forall l r,
  print_string l ++ r = QUOTE :: flat_map escape_char l ++ QUOTE :: r.
Proof. intros l r. unfold print_string. simpl. rewrite <- app_assoc. reflexivity. Qed.

Lemma parse_value_string : forall f l rest,
  parse_value (S f) (print_string l ++ rest) = Some (cJSON_String l, rest).
Proof.
  intros f l rest. unfold print_string. rewrite <- app_comm_cons, <- app_assoc.
  simpl app at 2. cbn [parse_value]. rewrite parse_string_escaped. reflexivity.
Qed.

Lemma parse_object_members_cons : forall f s r k r1 r2 v r3 r4,
  skip_ws s = QUOTE :: r -> parse_string_body r = Some (k, r1) ->
  skip_ws r1 = ":" :: r2 -> parse_value f (skip_ws r2) = Some (v, r3) ->
  skip_ws r3 = "," :: r4 ->
  parse_object_members (S f) s =
  match parse_object_members f r4 with
  | Some (ms, r5) => Some ((k, v) :: ms, r5)
  | None => None
  end.
Proof.
  intros f s r k r1 r2 v r3 r4 H1 H2 H3 H4 H5.
  cbn [parse_object_members]. rewrite H1, H2, H3, H4, H5. reflexivity.
Qed.

Lemma parse_object_members_last : forall f s r k r1 r2 v r3 r4,
  skip_ws s = QUOTE :: r -> parse_string_body r = Some (k, r1) ->
  skip_ws r1 = ":" :: r2 -> parse_value f (skip_ws r2) = Some (v, r3) ->
  skip_ws r3 = "}" :: r4 ->
  parse_object_members (S f) s = Some ([(k, v)], r4).
Proof.
  intros f s r k r1 r2 v r3 r4 H1 H2 H3 H4 H5.
  cbn [parse_object_members]. rewrite H1, H2, H3, H4, H5. reflexivity.
Qed.

(** The text save_cache_to_file writes. *)
Lemma print_cache_json : forall info,
  cJSON_Print (cache_json info) =
  ["{"] ++ ["010"] ++
  ["009"] ++ print_string k_ip ++ [":"; "009"] ++ print_string (list_ascii_of_string info.(ip)) ++ [","] ++ ["010"] ++
  ["009"] ++ print_string k_mac ++ [":"; "009"] ++ print_string (list_ascii_of_string info.(mac)) ++ [","] ++ ["010"] ++
  ["009"] ++ print_string k_last_seen ++ [":"; "009"] ++ print_number (double_of_Z info.(last_seen)) ++ [","] ++ ["010"] ++
  ["009"] ++ print_string k_online ++ [":"; "009"] ++ print_value 1 (if info.(online) then cJSON_True else cJSON_False) ++ ["010"] ++
  ["}"].
Proof.
  intros info. unfold cJSON_Print, cache_json. cbn [print_value tabs].
  rewrite <- !app_assoc. reflexivity.
Qed.

Lemma no_nul_cons : forall ch l, no_nul (ch :: l) = negb (Ascii.eqb ch "000") && no_nul l.
Proof. reflexivity. Qed.

Lemma digits_no_nul : forall l, forallb isdigit l = true -> no_nul l = true.
Proof.
  induction l as [| ch l IH]; intros H; [reflexivity |].
  simpl in H; apply andb_true_iff in H as [H1 H2].
  rewrite no_nul_cons, IH by exact H2.
  destruct (Ascii.eqb_spec ch "000") as [-> | _]; [discriminate H1 | reflexivity].
Qed.

Lemma print_number_no_nul : forall v, no_nul (print_number v) = true.
Proof.
  intros v. unfold print_number. destruct (v <? 0)%Z eqn:E.
  - apply Z.ltb_lt in E. destruct (print_nonneg_ok (- v) ltac:(lia)) as (_ & Hd & _).
    rewrite no_nul_cons, digits_no_nul by exact Hd. reflexivity.
  - apply Z.ltb_ge in E. destruct (print_nonneg_ok v E) as (_ & Hd & _).
    apply digits_no_nul, Hd.
Qed.

Lemma print_cache_json_no_nul : forall info, no_nul (cJSON_Print (cache_json info)) = true.
Proof.
  intros info. rewrite print_cache_json. unfold print_string.
  repeat (rewrite no_nul_app || rewrite no_nul_cons).
  rewrite !escaped_no_nul, print_number_no_nul.
  destruct (online info); reflexivity.
Qed.

Lemma parse_object_members_next : forall f k vt v tail,
  parse_value f (skip_ws (vt ++ [","] ++ tail)) = Some (v, [","] ++ tail) ->
  parse_object_members (S f) (["010"] ++ ["009"] ++ print_string k ++ [":"; "009"] ++ vt ++ [","] ++ tail) =
  match parse_object_members f tail with
  | Some (ms, r5) => Some ((k, v) :: ms, r5)
  | None => None
  end.
Proof.
  intros f k vt v tail H. rewrite print_string_app.
  eapply parse_object_members_cons.
  - reflexivity.
  - apply parse_string_escaped.
  - reflexivity.
  - exact H.
  - reflexivity.
Qed.

Lemma parse_object_members_end : forall f k vt v,
  parse_value f (skip_ws (vt ++ ["010"] ++ ["}"])) = Some (v, ["010"] ++ ["}"]) ->
  parse_object_members (S f) (["010"] ++ ["009"] ++ print_string k ++ [":"; "009"] ++ vt ++ ["010"] ++ ["}"]) =
  Some ([(k, v)], []).
Proof.
  intros f k vt v H. rewrite print_string_app.
  eapply parse_object_members_last.
  - reflexivity.
  - apply parse_string_escaped.
  - reflexivity.
  - exact H.
  - reflexivity.
Qed.

Lemma parse_value_object : forall f r r', skip_ws r = QUOTE :: r' ->
  parse_value (S f) ("{" :: r) =
  match parse_object_members f r with
  | Some (ms, r'') => Some (cJSON_Object ms, r'')
  | None => None
  end.
Proof. intros f r r' H. cbn [parse_value]. rewrite H. reflexivity. Qed.

(** cJSON_Parse reads back the text save_cache_to_file writes. *)
Lemma parse_cache_text : forall info,
  cJSON_Parse (cJSON_Print (cache_json info)) = Some (cache_json_read info).
Proof.
  intros info. unfold cJSON_Parse.
  rewrite c_string_no_nul by apply print_cache_json_no_nul.
  assert (Hlen : (5 <= List.length (cJSON_Print (cache_json info)))%nat).
  { rewrite print_cache_json. simpl. lia. }
  destruct (List.length (cJSON_Print (cache_json info))) as [|[|[|[|[|g]]]]]; try lia.
  rewrite print_cache_json.
  change (skip_ws (skip_utf8_bom (["{"] ++ ?R))) with ("{" :: R).
  erewrite parse_value_object by reflexivity.
  erewrite parse_object_members_next; [| exact (parse_value_string _ _ _)].
  erewrite parse_object_members_next; [| exact (parse_value_string _ _ _)].
  erewrite parse_object_members_next; [| exact (parse_value_number _ _ _)].
  erewrite parse_object_members_end; [reflexivity |].
  destruct (online info); reflexivity.
Qed.

Lemma length_list_ascii : forall s, List.length (list_ascii_of_string s) = String.length s.
Proof. induction s as [| ch s IH]; simpl; [reflexivity | rewrite IH; reflexivity]. Qed.

Lemma snprintf_fits : forall n s, (String.length s < n)%nat ->
  no_nul (list_ascii_of_string s) = true -> snprintf_s n (list_ascii_of_string s) = s.
Proof.
  intros n s Hl Hn. unfold snprintf_s. rewrite c_string_no_nul by exact Hn.
  rewrite firstn_all2 by (rewrite length_list_ascii; lia).
  apply string_of_list_ascii_of_string.
Qed.

Lemma double_of_Z_exact : forall x, (Z.abs x <= 2 ^ 53)%Z -> double_of_Z x = x.
Proof.
  intros x Hx. unfold double_of_Z. apply Z.leb_le in Hx. rewrite Hx. reflexivity.
Qed.

Lemma print_number_length : forall v, (Z.abs v < 10 ^ 15)%Z ->
  (List.length (print_number v) <= 52)%nat.
Proof.
  intros v Hv.
  assert (Hlog : forall n, (0 <= n < 10 ^ 15)%Z -> (Z.to_nat (Z.log2 n) <= 50)%nat).
  { intros n Hn. destruct (Z.eq_dec n 0) as [-> | Hn0]; [simpl; lia |].
    assert (Z.log2 n < 50)%Z.
    { apply Z.log2_lt_pow2; [lia |]. eapply Z.lt_trans; [apply Hn | reflexivity]. }
    lia. }
  unfold print_number. destruct (v <? 0)%Z eqn:E.
  - apply Z.ltb_lt in E. destruct (print_nonneg_ok (- v) ltac:(lia)) as (_ & _ & _ & Hl).
    specialize (Hlog (- v)%Z ltac:(lia)). cbn [List.length]. lia.
  - apply Z.ltb_ge in E. destruct (print_nonneg_ok v E) as (_ & _ & _ & Hl).
    specialize (Hlog v ltac:(lia)). lia.
Qed.

Lemma print_cache_json_length : forall info, info_fits info -> (Z.abs info.(last_seen) < 10 ^ 15)%Z ->
  (0 < List.length (cJSON_Print (cache_json info)) <= 4096)%nat.
Proof.
  intros info (Hip & _ & Hmac & _) Hls.
  rewrite print_cache_json. unfold print_string.
  rewrite double_of_Z_exact by (eapply Z.le_trans; [apply Z.lt_le_incl, Hls | vm_compute; discriminate]).
  pose proof (escaped_length (list_ascii_of_string info.(ip))) as E1.
  pose proof (escaped_length (list_ascii_of_string info.(mac))) as E2.
  rewrite !length_list_ascii in E1, E2.
  pose proof (print_number_length _ Hls) as E3.
  assert (E4 : (List.length (print_value 1 (if online info then cJSON_True else cJSON_False)) <= 5)%nat)
    by (destruct (online info); simpl; lia).
  repeat (rewrite length_app || cbn [List.length]).
  change (List.length (flat_map escape_char k_ip)) with 2%nat.
  change (List.length (flat_map escape_char k_mac)) with 3%nat.
  change (List.length (flat_map escape_char k_last_seen)) with 9%nat.
  change (List.length (flat_map escape_char k_online)) with 6%nat.
  lia.
Qed.

(** After a successful save of [info], get_cached reads the saved text. *)
Lemma get_cached_after_save : forall d writable info now,
  d.(initialized) = true ->
  fst (ps5_detector_save_cache d writable info) = PS5_DETECT_OK ->
  ps5_detector_get_cached (snd (ps5_detector_save_cache d writable info)) true now =
  load_cache_from_file (FileContent (cJSON_Print (cache_json info))) now.
Proof.
  intros [init f] writable info now Hi Hs. cbn in Hi; subst init.
  destruct writable; [reflexivity | discriminate Hs].
Qed.

(** ** C6 *)




(** ** C7 *)




End CacheFacts.
